(** * Fixture corpus: build-, lint- and test-failure fixtures

    The repository holds three deliberately broken JavaScript files:
    - [src/components/test-build-fail.js]  (an import of a package that is
      not installed),
    - [src/utils/test-lint-fail.js]        (a read of an undeclared variable),
    - [src/utils/tests/utils/test-fail.test.js] (a Jest assertion that does
      not match).

    This development embeds the three files (their text, their syntax tree
    and, for the code that runs, their evaluation as state-passing functions)
    together with small models of the contracts of the three external tools
    that consume them, and proves the properties the specification states. *)

From Stdlib Require Import PrimFloat ZArith String Ascii List Bool Lia.
From stdpp Require Import gmap strings.
Import ListNotations.
Open Scope string_scope.

(** ** The text of the three files *)

Module Source.

(** The double-quote character of the JavaScript string literals. *)
Definition dq : string := String "034"%char EmptyString.

Definition test_build_fail_js : list string :=
  [ "// 测试文件：src/components/test-build-fail.js"
  ; "// 失败场景：构建验证失败（导入不存在的依赖包，构建工具无法解析）"
  ; "// 说明：导入 " ++ dq ++ "non-existent-lib" ++ dq ++ "（虚构依赖），项目未安装该包，构建时会报 " ++ dq ++ "Module not found" ++ dq ++ " 错误"
  ; EmptyString
  ; "// 核心错误点：导入不存在的依赖包（项目 package.json 中无此依赖）"
  ; "import NonExistentComponent from " ++ dq ++ "non-existent-lib" ++ dq ++ "; // 虚构依赖，构建时无法找到"
  ; "import { useState } from " ++ dq ++ "react" ++ dq ++ "; // 正常依赖（对比用，不影响错误触发）"
  ; EmptyString
  ; "// 模拟React组件（真实项目结构）"
  ; "const TestBuildFailComponent = () => {"
  ; "  const [count, setCount] = useState(0);"
  ; EmptyString
  ; "  return ("
  ; "    <div className=" ++ dq ++ "test-component" ++ dq ++ ">"
  ; "      <h2>测试构建失败组件</h2>"
  ; "      <p>点击次数：{count}</p>"
  ; "      <button onClick={() => setCount(count + 1)}>增加计数</button>"
  ; "      "
  ; "      {/* 核心错误点：使用不存在的依赖组件，加剧构建失败 */}"
  ; "      <NonExistentComponent "
  ; "        title=" ++ dq ++ "虚构组件" ++ dq ++ " "
  ; "        content=" ++ dq ++ "此组件来自不存在的依赖包" ++ dq ++ " "
  ; "      />"
  ; "    </div>"
  ; "  );"
  ; "};"
  ; EmptyString
  ; "export default TestBuildFailComponent;"
  ].

Definition test_lint_fail_js : list string :=
  [ "// 测试文件：src/utils/test-lint-fail.js"
  ; "// 失败场景：ESLint 代码质量检查失败（触发 no-undef 规则：使用未声明的变量）"
  ; "// 说明：undefinedVar 未通过 let/const/var 声明，ESLint 会报 " ++ dq ++ "'undefinedVar' is not defined" ++ dq ++ " 错误"
  ; EmptyString
  ; "// 故意使用未声明变量，触发ESLint错误"
  ; "console.log(" ++ dq ++ "测试ESLint错误：未声明变量调用" ++ dq ++ ");"
  ; "console.log(undefinedVar); // 核心错误点：undefinedVar 未声明"
  ; EmptyString
  ; "// 其他正常代码（仅为模拟真实文件结构，不影响错误触发）"
  ; "export const normalUtils = () => {"
  ; "  const validVar = " ++ dq ++ "正常变量" ++ dq ++ ";"
  ; "  return validVar;"
  ; "};"
  ].

Definition test_fail_test_js : list string :=
  [ "// 测试文件：tests/utils/test-fail.test.js"
  ; "// 失败场景：Jest 测试执行失败（断言结果不匹配）"
  ; "// 说明：sum(1,1) 实际结果为 2，但断言为 3，触发测试失败"
  ; EmptyString
  ; "// 导入待测试的工具函数（模拟真实项目结构）"
  ; "import { sum } from " ++ dq ++ "../../src/utils/normal-utils" ++ dq ++ "; // 假设项目有正常工具函数文件"
  ; EmptyString
  ; "// 测试用例1：正常场景（仅为对比，不影响失败结果）"
  ; "test(" ++ dq ++ "sum(2,3) 应返回 5（正常用例）" ++ dq ++ ", () => {"
  ; "  expect(sum(2, 3)).toBe(5); // 此用例正常通过"
  ; "});"
  ; EmptyString
  ; "// 测试用例2：失败场景（核心错误用例）"
  ; "test(" ++ dq ++ "sum(1,1) 故意断言为 3（触发测试失败）" ++ dq ++ ", () => {"
  ; "  const result = sum(1, 1); // 实际结果：2"
  ; "  expect(result).toBe(3); // 核心错误点：断言结果与实际结果不匹配，Jest 报 " ++ dq ++ "Expected: 3, Received: 2" ++ dq
  ; "});"
  ; EmptyString
  ; "// 工具函数模拟（若项目无 normal-utils.js，可直接在此定义，避免导入错误）"
  ; "// export const sum = (a, b) => a + b;"
  ].

(** Repository paths of the named files. *)
Definition test_lint_fail_path : string := "src/utils/test-lint-fail.js".
Definition test_fail_test_path : string := "src/utils/tests/utils/test-fail.test.js".

(** The path the header comment of the test fixture (line 1) gives for it. *)
Definition test_fail_documented_path : string := "tests/utils/test-fail.test.js".

(** [occurs x s]: the text [x] occurs somewhere in [s]. *)
Fixpoint occurs (x s : string) : bool :=
  String.prefix x s ||
  match s with
  | EmptyString => false
  | String _ rest => occurs x rest
  end.

(** [occurs_at file x line]: [x] occurs on line [line] (counted from 1). *)
Definition occurs_at (file : list string) (x : string) (line : nat) : bool :=
  match line with
  | O => false
  | S i => match nth_error file i with
           | Some l => occurs x l
           | None => false
           end
  end.

End Source.

(** ** Syntax of the JavaScript fragment the fixtures use *)

Module Syntax.

(** The left-hand side of a [const] declaration. *)
Inductive pattern :=
| PId (x : string)                 (* const x = ...        *)
| PArray (xs : list string).       (* const [x, y] = ...   *)

(** Expressions and statements; identifiers and JSX elements carry the
    line of the file they stand on. *)
#[warnings="-register-all"] Inductive node :=
| StrLit (s : string)
| NumLit (n : Z)
| Ident (x : string) (line : nat)
| Member (obj : node) (prop : string)
| Call (callee : node) (args : list node)
| Plus (l r : node)
| Arrow (params : list string) (body : list node)      (* (..) => { .. } *)
| ArrowExpr (params : list string) (body : node)        (* (..) => e      *)
| Jsx (tag : string) (line : nat) (attrs : list node) (children : list node)
| Attr (name : string) (val : node)
| JsxText (s : string)
| Const (pat : pattern) (init : node)
| Return (e : node)
| ExportConst (x : string) (init : node)
| ExportDefault (e : node).

(** [import d, { n1, n2 } from "source"] *)
Record import_decl := {
  imp_source : string;
  imp_default : option string;
  imp_named : list string;
  imp_line : nat
}.

Record module_ast := {
  imports : list import_decl;
  body : list node
}.

Definition pattern_names (p : pattern) : list string :=
  match p with
  | PId x => [x]
  | PArray xs => xs
  end.

(** Names a statement declares in the scope it stands in. *)
Definition declared (n : node) : list string :=
  match n with
  | Const p _ => pattern_names p
  | ExportConst x _ => [x]
  | _ => []
  end.

Definition import_bindings (d : import_decl) : list string :=
  match imp_default d with
  | Some x => x :: imp_named d
  | None => imp_named d
  end.

(** Names a module exports. *)
Definition exported (n : node) : list string :=
  match n with
  | ExportConst x _ => [x]
  | ExportDefault _ => ["default"]
  | _ => []
  end.

Definition exports (m : module_ast) : list string := flat_map exported (body m).

(** A JSX tag names a component (a variable) when it starts with a capital
    letter; lower-case tags are host elements. *)
Definition is_component (tag : string) : bool :=
  match tag with
  | String c _ => (65 <=? nat_of_ascii c)%nat && (nat_of_ascii c <=? 90)%nat
  | EmptyString => false
  end.

(** Every identifier reference in a node, with its line. *)
Fixpoint references (n : node) : list (string * nat) :=
  match n with
  | StrLit _ | NumLit _ | JsxText _ => []
  | Ident x l => [(x, l)]
  | Member o _ => references o
  | Call f args => references f ++ flat_map references args
  | Plus l r => references l ++ references r
  | Arrow _ b => flat_map references b
  | ArrowExpr _ b => references b
  | Jsx tag l attrs ch =>
      (if is_component tag then [(tag, l)] else [])
        ++ flat_map references attrs ++ flat_map references ch
  | Attr _ v => references v
  | Const _ i => references i
  | Return e => references e
  | ExportConst _ i => references i
  | ExportDefault e => references e
  end.

Definition in_scope (sc : list string) (x : string) : bool :=
  existsb (String.eqb x) sc.

(** The references of a node that no enclosing scope binds.  [sc] holds the
    names bound around the node; a function adds its parameters and the
    declarations of its block (declarations are visible in the whole block
    whatever their position). *)
Fixpoint unbound (sc : list string) (n : node) : list (string * nat) :=
  match n with
  | StrLit _ | NumLit _ | JsxText _ => []
  | Ident x l => if in_scope sc x then [] else [(x, l)]
  | Member o _ => unbound sc o
  | Call f args => unbound sc f ++ flat_map (unbound sc) args
  | Plus l r => unbound sc l ++ unbound sc r
  | Arrow ps b => flat_map (unbound (ps ++ flat_map declared b ++ sc)) b
  | ArrowExpr ps b => unbound (ps ++ sc) b
  | Jsx tag l attrs ch =>
      (if is_component tag && negb (in_scope sc tag) then [(tag, l)] else [])
        ++ flat_map (unbound sc) attrs ++ flat_map (unbound sc) ch
  | Attr _ v => unbound sc v
  | Const _ i => unbound sc i
  | Return e => unbound sc e
  | ExportConst _ i => unbound sc i
  | ExportDefault e => unbound sc e
  end.

(** Every name a node binds anywhere inside it: the parameters of its
    functions and the names its declarations introduce. *)
Fixpoint binders (n : node) : list string :=
  match n with
  | StrLit _ | NumLit _ | JsxText _ | Ident _ _ => []
  | Member o _ => binders o
  | Call f args => binders f ++ flat_map binders args
  | Plus l r => binders l ++ binders r
  | Arrow ps b => ps ++ flat_map binders b
  | ArrowExpr ps b => ps ++ binders b
  | Jsx _ _ attrs ch => flat_map binders attrs ++ flat_map binders ch
  | Attr _ v => binders v
  | Const p i => pattern_names p ++ binders i
  | Return e => binders e
  | ExportConst x i => x :: binders i
  | ExportDefault e => binders e
  end.

(** The names bound at module level: imports and top-level declarations. *)
Definition module_scope (m : module_ast) : list string :=
  flat_map import_bindings (imports m) ++ flat_map declared (body m).

(** Every name the file binds, at any depth. *)
Definition all_binders (m : module_ast) : list string :=
  flat_map import_bindings (imports m) ++ flat_map binders (body m).

End Syntax.

(** ** The syntax trees of the three files *)

Module Ast.
Import Syntax.

(** src/components/test-build-fail.js *)
Definition test_build_fail : module_ast := {|
  imports :=
    [ {| imp_source := "non-existent-lib";
         imp_default := Some "NonExistentComponent";
         imp_named := []; imp_line := 6 |}
    ; {| imp_source := "react";
         imp_default := None;
         imp_named := ["useState"]; imp_line := 7 |} ];
  body :=
    [ Const (PId "TestBuildFailComponent")
        (Arrow []
           [ Const (PArray ["count"; "setCount"])
               (Call (Ident "useState" 11) [NumLit 0])
           ; Return
               (Jsx "div" 14 [Attr "className" (StrLit "test-component")]
                  [ Jsx "h2" 15 [] [JsxText "测试构建失败组件"]
                  ; Jsx "p" 16 [] [JsxText "点击次数："; Ident "count" 16]
                  ; Jsx "button" 17
                      [Attr "onClick"
                         (ArrowExpr []
                            (Call (Ident "setCount" 17)
                               [Plus (Ident "count" 17) (NumLit 1)]))]
                      [JsxText "增加计数"]
                  ; Jsx "NonExistentComponent" 20
                      [ Attr "title" (StrLit "虚构组件")
                      ; Attr "content" (StrLit "此组件来自不存在的依赖包") ]
                      [] ]) ])
    ; ExportDefault (Ident "TestBuildFailComponent" 28) ]
|}.

(** src/utils/test-lint-fail.js *)
Definition test_lint_fail : module_ast := {|
  imports := [];
  body :=
    [ Call (Member (Ident "console" 6) "log")
        [StrLit "测试ESLint错误：未声明变量调用"]
    ; Call (Member (Ident "console" 7) "log") [Ident "undefinedVar" 7]
    ; ExportConst "normalUtils"
        (Arrow []
           [ Const (PId "validVar") (StrLit "正常变量")
           ; Return (Ident "validVar" 12) ]) ]
|}.

(** src/utils/tests/utils/test-fail.test.js *)
Definition test_fail_test : module_ast := {|
  imports :=
    [ {| imp_source := "../../src/utils/normal-utils";
         imp_default := None;
         imp_named := ["sum"]; imp_line := 6 |} ];
  body :=
    [ Call (Ident "test" 9)
        [ StrLit "sum(2,3) 应返回 5（正常用例）"
        ; Arrow []
            [ Call (Member
                      (Call (Ident "expect" 10)
                         [Call (Ident "sum" 10) [NumLit 2; NumLit 3]])
                      "toBe")
                [NumLit 5] ] ]
    ; Call (Ident "test" 14)
        [ StrLit "sum(1,1) 故意断言为 3（触发测试失败）"
        ; Arrow []
            [ Const (PId "result") (Call (Ident "sum" 15) [NumLit 1; NumLit 1])
            ; Call (Member (Call (Ident "expect" 16) [Ident "result" 16]) "toBe")
                [NumLit 3] ] ] ]
|}.

(** Modelled from the spec: the collaborator module [normal-utils], which
    the test fixture imports and the repository does not contain.  Sections
    4.3 and 6 give its contract, [sum(a: number, b: number) -> number],
    addition of two numeric operands; the commented-out fallback on line 20
    of the test fixture writes it [export const sum = (a, b) => a + b;]. *)
Definition normal_utils : module_ast := {|
  imports := [];
  body :=
    [ ExportConst "sum"
        (ArrowExpr ["a"; "b"] (Plus (Ident "a" 20) (Ident "b" 20))) ]
|}.

(** Every identifier of a syntax tree stands on the line of the file text
    that its location names. *)
Definition located (text : list string) (m : module_ast) : bool :=
  forallb (fun r => Source.occurs_at text (fst r) (snd r))
          (flat_map references (body m))
  && forallb (fun d =>
                Source.occurs_at text (imp_source d) (imp_line d)
                && forallb (fun x => Source.occurs_at text x (imp_line d))
                           (import_bindings d))
             (imports m).

End Ast.

(** ** Values, the host state and evaluation *)

Module Runtime.

(** JavaScript values of the fragment; a number is an IEEE 754 binary64. *)
Inductive value :=
| VUndefined
| VNum (n : float)
| VStr (s : string)
| VConsole                       (* the console object of the host *)
| VFunction (name : string).     (* a function of the program, by name *)

Inductive js_error :=
| ReferenceError (name : string)                    (* name is not defined *)
| TypeError (msg : string)
| JestAssertionError (expected received : value)    (* expect(..).toBe(..) *)
| ModuleNotFound (specifier from : string)          (* Cannot find module  *)
| ExportNotFound (specifier name : string)
| Unsupported.                   (* outside the modelled fragment *)

(** The state a run can see and change: the global object, the bindings of
    the module under evaluation that are initialised so far, and the lines
    written to the console. *)
Record World := {
  globals : gmap string value;
  bindings : gmap string value;
  stdout : list (list value)
}.

(** A computation may change the world and may throw; what it wrote before
    it threw stays written. *)
Definition M (A : Type) : Type := World -> (js_error + A) * World.

Definition ret {A} (a : A) : M A := fun w => (inr a, w).

Definition throw {A} (e : js_error) : M A := fun w => (inl e, w).

Definition bind {A B} (c : M A) (k : A -> M B) : M B :=
  fun w =>
    match c w with
    | (inl e, w1) => (inl e, w1)
    | (inr a, w1) => k a w1
    end.

Declare Scope js_scope.
Delimit Scope js_scope with js.
Notation "x <- c ;; k" := (bind c (fun x => k))
  (at level 100, c at next level, right associativity) : js_scope.
Notation "c ;;; k" := (bind c (fun _ => k))
  (at level 100, right associativity) : js_scope.
Open Scope js_scope.

(** SameValue on numbers (what [Object.is] and [toBe] use): NaN equals NaN,
    and the two zeros differ. *)
Definition same_value_number (x y : float) : bool :=
  match classify x, classify y with
  | FloatClass.NaN, FloatClass.NaN => true
  | FloatClass.PZero, FloatClass.PZero => true
  | FloatClass.NZero, FloatClass.NZero => true
  | FloatClass.PZero, _ | FloatClass.NZero, _ => false
  | _, FloatClass.PZero | _, FloatClass.NZero => false
  | _, _ => PrimFloat.eqb x y
  end.

Definition same_value (a b : value) : bool :=
  match a, b with
  | VUndefined, VUndefined => true
  | VNum x, VNum y => same_value_number x y
  | VStr s, VStr t => String.eqb s t
  | VConsole, VConsole => true
  | VFunction f, VFunction g => String.eqb f g
  | _, _ => false
  end.

(** [a + b] on two numbers adds, on two strings concatenates; the other
    cases convert an operand first and are not modelled. *)
Definition js_plus (a b : value) : M value :=
  match a, b with
  | VNum x, VNum y => ret (VNum (x + y)%float)
  | VStr s, VStr t => ret (VStr (s ++ t))
  | _, _ => throw Unsupported
  end.

(** Reading an identifier: the module scope, then the global object; a name
    found in neither is a ReferenceError. *)
Definition read_ident (x : string) : M value :=
  fun w =>
    match bindings w !! x with
    | Some v => (inr v, w)
    | None =>
        match globals w !! x with
        | Some v => (inr v, w)
        | None => (inl (ReferenceError x), w)
        end
    end.

(** [const x = v] at module level initialises the binding. *)
Definition init_binding (x : string) (v : value) : M unit :=
  fun w =>
    (inr tt, {| globals := globals w;
                bindings := <[x := v]> (bindings w);
                stdout := stdout w |}).

Definition print (args : list value) : M unit :=
  fun w =>
    (inr tt, {| globals := globals w;
                bindings := bindings w;
                stdout := (stdout w ++ [args])%list |}).

(** [console.log]: the member is read before the arguments are evaluated. *)
Definition console_log : M (list value -> M unit) :=
  c <- read_ident "console" ;;
  match c with
  | VConsole => ret print
  | _ => throw (TypeError "console.log is not a function")
  end.

(** A module starts with no binding initialised. *)
Definition fresh_module (w : World) : World :=
  {| globals := globals w; bindings := ∅; stdout := stdout w |}.

Definition eval_module {A} (m : M A) : M A := fun w => m (fresh_module w).

(** A host whose global object has the console and nothing else the
    fixtures name. *)
Definition standard_world : World :=
  {| globals := {[ "console" := VConsole ]}; bindings := ∅; stdout := [] |}.

End Runtime.

(** ** Module resolution *)

Module Resolve.
Import Syntax.

(** A path is split at its slashes. *)
Fixpoint split_slash (cur s : string) : list string :=
  match s with
  | EmptyString => [cur]
  | String c rest =>
      if Ascii.eqb c "/"%char then cur :: split_slash EmptyString rest
      else split_slash (cur ++ String c EmptyString) rest
  end.

Definition segments (p : string) : list string := split_slash EmptyString p.

Definition join (segs : list string) : string := String.concat "/" segs.

(** Walk the segments of a specifier from a directory: [.] stays, [..]
    goes up, a name goes down.  [stack] is the directory, innermost first. *)
Fixpoint walk (stack segs : list string) : list string :=
  match segs with
  | [] => rev stack
  | s :: rest =>
      if String.eqb s "." || String.eqb s EmptyString then walk stack rest
      else if String.eqb s ".." then walk (tl stack) rest
      else walk (s :: stack) rest
  end.

(** The directory of a file, innermost segment first. *)
Definition dir_of (file : string) : list string := tl (rev (segments file)).

(** A specifier is relative when it starts with [./] or [../]; otherwise it
    names a package. *)
Definition is_relative (spec : string) : bool :=
  String.prefix "./" spec || String.prefix "../" spec.

(** The path a relative specifier names, seen from the importing file. *)
Definition target (from spec : string) : string :=
  join (walk (dir_of from) (segments spec)).

(** The extensions the runner and the bundler try, in order, and the index
    file of a directory. *)
Definition candidates (p : string) : list string :=
  [ p; p ++ ".js"; p ++ ".mjs"; p ++ ".cjs"; p ++ ".jsx"; p ++ ".ts";
    p ++ ".tsx"; p ++ ".json"; p ++ ".node"; p ++ "/index.js" ].

Section Files.
Context {A : Type}.

(** The files of a project, by path. *)
Definition lookup_file (files : list (string * A)) (p : string)
  : option (string * A) :=
  find (fun f => String.eqb (fst f) p) files.

Fixpoint first_file (files : list (string * A)) (ps : list string)
  : option (string * A) :=
  match ps with
  | [] => None
  | p :: rest =>
      match lookup_file files p with
      | Some f => Some f
      | None => first_file files rest
      end
  end.

Definition resolve_relative (files : list (string * A)) (from spec : string)
  : option (string * A) :=
  first_file files (candidates (target from spec)).
End Files.

End Resolve.

(** ** The test runner (Jest): [test], [expect(..).toBe(..)] and the run *)

Module Jest.
Import Runtime.

(** A test case is a callback; [test(name, fn)] appends it to the cases of
    the module being loaded. *)
Definition test_fn : Type := M unit.
Definition registry : Type := list (string * test_fn).

Definition test (name : string) (fn : test_fn) : registry -> M registry :=
  fun r => ret (r ++ [(name, fn)])%list.

(** Top-level statements of a test module run one after the other. *)
Definition seq (s1 s2 : registry -> M registry) : registry -> M registry :=
  fun r => bind (s1 r) s2.
Infix ">>" := seq (at level 61, left associativity) : js_scope.

(** [expect(received).toBe(expected)] passes when the two are the same value
    and throws otherwise, reporting both. *)
Definition toBe (expected received : value) : M unit :=
  if same_value received expected then ret tt
  else throw (JestAssertionError expected received).

Definition expect (received : value) (matcher : value -> M unit) : M unit :=
  matcher received.

Inductive case_status :=
| Passed
| Failed (e : js_error).

Record case_report := { case_name : string; status : case_status }.

Inductive suite_report :=
| SuiteFailedToRun (e : js_error)        (* the module did not load *)
| SuiteRan (cases : list case_report).

Definition status_of {A} (r : js_error + A) : case_status :=
  match r with
  | inl e => Failed e
  | inr _ => Passed
  end.

(** Every registered case runs, in order; what a case throws is caught and
    becomes its report. *)
Fixpoint run_cases (r : registry) (w : World) : list case_report * World :=
  match r with
  | [] => ([], w)
  | (name, fn) :: rest =>
      let '(res, w1) := fn w in
      let '(reps, w2) := run_cases rest w1 in
      ({| case_name := name; status := status_of res |} :: reps, w2)
  end.

Definition has_passed (c : case_report) : bool :=
  match status c with
  | Passed => true
  | Failed _ => false
  end.

Definition passed (s : suite_report) : list case_report :=
  match s with
  | SuiteFailedToRun _ => []
  | SuiteRan cs => List.filter has_passed cs
  end.

Definition failed (s : suite_report) : list case_report :=
  match s with
  | SuiteFailedToRun _ => []
  | SuiteRan cs => List.filter (fun c => negb (has_passed c)) cs
  end.

Definition reported (s : suite_report) : list case_report :=
  match s with
  | SuiteFailedToRun _ => []
  | SuiteRan cs => cs
  end.

(** The exit code of the runner is 0 only when the module loaded and every
    case passed. *)
Definition exit_code (s : suite_report) : Z :=
  match s with
  | SuiteFailedToRun _ => 1
  | SuiteRan cs => if forallb has_passed cs then 0 else 1
  end.

End Jest.

(** ** The code of the fixtures that runs *)

Module Program.
Import Runtime Jest.

(** A function takes its arguments as a list; a parameter without an
    argument is [undefined]. *)
Definition js_fun : Type := list value -> M value.

Definition arg (i : nat) (args : list value) : value := nth i args VUndefined.

(** What a module sees of its imports: the functions bound to local names. *)
Definition import_env : Type := list (string * js_fun).

Definition lookup_fun (x : string) (env : import_env) : option js_fun :=
  option_map snd (find (fun b => String.eqb (fst b) x) env).

Definition call_import (env : import_env) (x : string) : js_fun :=
  fun args =>
    match lookup_fun x env with
    | Some f => f args
    | None => throw (ReferenceError x)
    end.

(** Modelled from the spec: the function [sum] of the collaborator module
    [normal-utils], which is not in the repository.  Sections 4.3 and 6:
    [sum(a: number, b: number) -> number], pure, addition of two numeric
    operands; line 20 of the test fixture keeps the same definition in a
    comment, [(a, b) => a + b]. *)
Definition sum : js_fun :=
  fun args => js_plus (arg 0 args) (arg 1 args).

(** test-lint-fail.js, lines 10-13. *)
Definition normalUtils : js_fun :=
  fun _ =>
    let validVar := VStr "正常变量" in
    ret validVar.

(** test-lint-fail.js evaluated as a module, statement by statement. *)
Definition test_lint_fail : M unit :=
  (log <- console_log ;;
   log [VStr "测试ESLint错误：未声明变量调用"]) ;;;
  (log <- console_log ;;
   v <- read_ident "undefinedVar" ;;
   log [v]) ;;;
  init_binding "normalUtils" (VFunction "normalUtils").

(** The world after line 6 of test-lint-fail.js has run in a fresh module. *)
Definition after_first_log (w : World) : World :=
  {| globals := globals w;
     bindings := ∅;
     stdout := (stdout w ++ [[VStr "测试ESLint错误：未声明变量调用"]])%list |}.

(** test-fail.test.js: the two [test] calls of lines 9-11 and 14-17, over
    the binding of the import of line 6. *)
Definition test_fail_test (imports : import_env) : registry -> M registry :=
  let sum := call_import imports "sum" in
  test "sum(2,3) 应返回 5（正常用例）"
    (r <- sum [VNum 2; VNum 3] ;;
     expect r (toBe (VNum 5)))
  >>
  test "sum(1,1) 故意断言为 3（触发测试失败）"
    (result <- sum [VNum 1; VNum 1] ;;
     expect result (toBe (VNum 3))).

End Program.

(** ** The project around a fixture and the three tools *)

Module Tools.
Import Syntax Runtime Jest Program.

(** A file of a project: its syntax and the functions it exports. *)
Record js_module := {
  ast : module_ast;
  funs : import_env
}.

(** What a tool finds around the file it is given: the files of the
    project, the installed packages (the dependencies [package.json]
    declares) and the globals of the lint configuration. *)
Record Host := {
  files : list (string * js_module);
  installed : list string;
  lint_globals : list string
}.

Inductive category := Build | Lint | Test.

Inductive diagnostic :=
| UnresolvedDependency (name : string) (line : nat)
| UndeclaredReference (name : string) (line : nat)
| AssertionMismatch (case : string) (expected received : value)
| CaseError (case : string) (e : js_error)
| SuiteError (e : js_error).

Record outcome := { diagnostics : list diagnostic; exit : Z }.

Definition outcome_of (ds : list diagnostic) : outcome :=
  {| diagnostics := ds;
     exit := match ds with [] => 0 | _ :: _ => 1 end |}.

(** *** Build: every import of the entry module must resolve *)

Definition resolves (h : Host) (from : string) (d : import_decl) : bool :=
  if Resolve.is_relative (imp_source d)
  then match Resolve.resolve_relative (files h) from (imp_source d) with
       | Some _ => true
       | None => false
       end
  else in_scope (installed h) (imp_source d).

Definition run_build (h : Host) (from : string) (m : module_ast) : outcome :=
  outcome_of
    (map (fun d => UnresolvedDependency (imp_source d) (imp_line d))
         (List.filter (fun d => negb (resolves h from d)) (imports m))).

(** *** Lint: the no-undef rule, one report per occurrence *)

Definition no_undef (h : Host) (m : module_ast) : list (string * nat) :=
  flat_map (unbound (lint_globals h ++ module_scope m)) (body m).

Definition run_lint (h : Host) (m : module_ast) : outcome :=
  outcome_of (map (fun r => UndeclaredReference (fst r) (snd r)) (no_undef h m)).

(** *** Test: load the module, then run its cases *)

Definition not_a_function (x : string) : js_fun :=
  fun _ => throw (TypeError (x ++ " is not a function")).

Definition unmodelled : js_fun := fun _ => throw Unsupported.

(** The binding of one imported name of a project file. *)
Definition bind_export (spec : string) (target : js_module)
    (exported_name local : string) : js_error + (string * js_fun) :=
  if in_scope (exports (ast target)) exported_name
  then inr (local, match lookup_fun exported_name (funs target) with
                   | Some f => f
                   | None => not_a_function local
                   end)
  else inl (ExportNotFound spec exported_name).

Fixpoint bind_all {A} (f : A -> js_error + (string * js_fun)) (xs : list A)
  : js_error + import_env :=
  match xs with
  | [] => inr []
  | x :: rest =>
      match f x with
      | inl e => inl e
      | inr b => match bind_all f rest with
                 | inl e => inl e
                 | inr bs => inr (b :: bs)
                 end
      end
  end.

(** The names one import declaration brings, as (exported name, local name). *)
Definition wanted (d : import_decl) : list (string * string) :=
  match imp_default d with
  | Some x => [("default", x)]
  | None => []
  end ++ map (fun x => (x, x)) (imp_named d).

Definition link_decl (h : Host) (from : string) (d : import_decl)
  : js_error + import_env :=
  if Resolve.is_relative (imp_source d)
  then match Resolve.resolve_relative (files h) from (imp_source d) with
       | Some (_, target) =>
           bind_all (fun n => bind_export (imp_source d) target (fst n) (snd n))
                    (wanted d)
       | None => inl (ModuleNotFound (imp_source d) from)
       end
  else if in_scope (installed h) (imp_source d)
       then inr (map (fun n => (snd n, unmodelled)) (wanted d))
       else inl (ModuleNotFound (imp_source d) from).

Fixpoint link (h : Host) (from : string) (ds : list import_decl)
  : js_error + import_env :=
  match ds with
  | [] => inr []
  | d :: rest =>
      match link_decl h from d with
      | inl e => inl e
      | inr bs => match link h from rest with
                  | inl e => inl e
                  | inr bs' => inr (bs ++ bs')%list
                  end
      end
  end.

(** The run of one test module: imports first; a module that does not load
    reports no case. *)
Definition run_suite (h : Host) (from : string) (m : module_ast)
    (code : import_env -> registry -> M registry)
  : World -> suite_report * World :=
  fun w =>
    match link h from (imports m) with
    | inl e => (SuiteFailedToRun e, w)
    | inr env =>
        match eval_module (code env []) w with
        | (inl e, w1) => (SuiteFailedToRun e, w1)
        | (inr r, w1) =>
            let '(reps, w2) := run_cases r w1 in (SuiteRan reps, w2)
        end
    end.

Definition case_diagnostic (c : case_report) : list diagnostic :=
  match status c with
  | Passed => []
  | Failed (JestAssertionError expected received) =>
      [AssertionMismatch (case_name c) expected received]
  | Failed e => [CaseError (case_name c) e]
  end.

Definition suite_outcome (s : suite_report) : outcome :=
  {| diagnostics :=
       match s with
       | SuiteFailedToRun e => [SuiteError e]
       | SuiteRan cs => flat_map case_diagnostic cs
       end;
     exit := exit_code s |}.

End Tools.

(** ** The corpus *)

Module Corpus.
Import Syntax Runtime Jest Program Tools.

(** A fixture (section 3): its file, the tool category that is to fail on
    it, the text the diagnostic is to contain, and, for a test module, its
    code. *)
Record fixture := {
  id : string;
  failureCategory : category;
  expectedDiagnosticSubstring : string;
  text : list string;
  syntax : module_ast;
  suite : option (import_env -> registry -> M registry)
}.

(** The path the header comment of the build fixture gives; the name of the
    file in the repository is not known. *)
Definition documented_build_path : string := "src/components/test-build-fail.js".

Definition build_fixture (path : string) : fixture := {|
  id := path;
  failureCategory := Build;
  expectedDiagnosticSubstring := "non-existent-lib";
  text := Source.test_build_fail_js;
  syntax := Ast.test_build_fail;
  suite := None
|}.

Definition lint_fixture : fixture := {|
  id := Source.test_lint_fail_path;
  failureCategory := Lint;
  expectedDiagnosticSubstring := "undefinedVar";
  text := Source.test_lint_fail_js;
  syntax := Ast.test_lint_fail;
  suite := None
|}.

Definition test_fixture : fixture := {|
  id := Source.test_fail_test_path;
  failureCategory := Test;
  expectedDiagnosticSubstring := "Expected: 3, Received: 2";
  text := Source.test_fail_test_js;
  syntax := Ast.test_fail_test;
  suite := Some Program.test_fail_test
|}.

(** The corpus, with the build fixture at [path]. *)
Definition corpus (path : string) : list fixture :=
  [build_fixture path; lint_fixture; test_fixture].

(** The files of the repository: the three fixtures and nothing else. *)
Definition repository (path : string) : list (string * js_module) :=
  [ (Source.test_fail_test_path,
     {| ast := Ast.test_fail_test; funs := [] |})
  ; (Source.test_lint_fail_path,
     {| ast := Ast.test_lint_fail; funs := [("normalUtils", normalUtils)] |})
  ; (path,
     {| ast := Ast.test_build_fail; funs := [("default", unmodelled)] |}) ].

Definition repo_host (path : string) (pkgs globals : list string) : Host :=
  {| files := repository path; installed := pkgs; lint_globals := globals |}.

(** Modelled from the spec: the project of section 6, in which the
    collaborator module exists where the import of the test fixture looks
    for it.  The repository has no such file. *)
Definition collaborator_path : string :=
  Resolve.target Source.test_fail_test_path "../../src/utils/normal-utils" ++ ".js".

Definition collaborator : js_module :=
  {| ast := Ast.normal_utils; funs := [("sum", sum)] |}.

Definition spec_host (path : string) (pkgs globals : list string) : Host :=
  {| files := (repository path ++ [(collaborator_path, collaborator)])%list;
     installed := pkgs;
     lint_globals := globals |}.

(** One invocation of a tool on a fixture.  The test runner takes only test
    modules; the other two tools read the file and leave the world as it is. *)
Definition invoke (h : Host) (t : category) (f : fixture)
  : World -> outcome * World :=
  fun w =>
    match t with
    | Build => (run_build h (id f) (syntax f), w)
    | Lint => (run_lint h (syntax f), w)
    | Test =>
        match suite f with
        | Some code =>
            let '(s, w1) := run_suite h (id f) (syntax f) code w in
            (suite_outcome s, w1)
        | None => (outcome_of [], w)
        end
    end.

Definition fails (o : outcome) : bool := negb (exit o =? 0)%Z.

(** The constructs of a fixture that make some tool fail. *)
Definition triggers (h : Host) (f : fixture) (w : World) : list diagnostic :=
  flat_map (fun t => diagnostics (fst (invoke h t f w))) [Build; Lint; Test].

(** The globals of a lint configuration for browser code and Jest tests. *)
Definition usual_globals : list string := ["console"; "test"; "expect"].

End Corpus.

(** ** The component of the build fixture *)

Module React.
Import Runtime.

(** The state cell [useState] keeps for a component that calls it once;
    it is empty until the first render. *)
Definition cell : Type := option value.

(** What an event handler does to the cell; it may throw. *)
Definition handler : Type := cell -> M cell.

Inductive prop :=
| PStr (s : string)
| PHandler (h : handler).

(** A rendered tree: elements, text and the values of [{..}] children. *)
#[warnings="-register-all"] Inductive element :=
| Elem (tag : string) (props : list (string * prop)) (children : list element)
| Text (s : string)
| Val (v : value).

(** [useState(init)]: the value of the cell, [init] on the first render. *)
Definition useState (init : value) (c : cell) : value * cell :=
  match c with
  | Some v => (v, c)
  | None => (init, Some init)
  end.

(** The setter [useState] returns replaces the value of the cell. *)
Definition set_state (v : value) : handler := fun _ => ret (Some v).

(** test-build-fail.js, lines 10-26. *)
Definition TestBuildFailComponent (c : cell) : element * cell :=
  let '(count, c) := useState (VNum 0) c in
  let setCount := set_state in
  (Elem "div" [("className", PStr "test-component")]
     [ Elem "h2" [] [Text "测试构建失败组件"]
     ; Elem "p" [] [Text "点击次数："; Val count]
     ; Elem "button"
         [("onClick",
           PHandler (fun c => v <- js_plus count (VNum 1) ;; setCount v c))]
         [Text "增加计数"]
     ; Elem "NonExistentComponent"
         [ ("title", PStr "虚构组件")
         ; ("content", PStr "此组件来自不存在的依赖包") ]
         [] ],
   c).

(** The handlers of a prop list under a given name. *)
Fixpoint prop_handlers (name : string) (ps : list (string * prop))
  : list handler :=
  match ps with
  | [] => []
  | (n, PHandler h) :: rest =>
      if String.eqb n name then h :: prop_handlers name rest
      else prop_handlers name rest
  | _ :: rest => prop_handlers name rest
  end.

(** The [onClick] handlers of the buttons of a tree, in document order. *)
Fixpoint click_handlers (e : element) : list handler :=
  match e with
  | Elem tag ps ch =>
      (if String.eqb tag "button" then prop_handlers "onClick" ps else [])
        ++ flat_map click_handlers ch
  | Text _ | Val _ => []
  end.

(** The values a tree shows through [{..}] children, in document order. *)
Fixpoint shown_values (e : element) : list value :=
  match e with
  | Elem _ _ ch => flat_map shown_values ch
  | Text _ => []
  | Val v => [v]
  end.

(** The tags of the components (capitalised tags) a tree uses. *)
Fixpoint component_tags (e : element) : list string :=
  match e with
  | Elem tag _ ch =>
      (if Syntax.is_component tag then [tag] else [])
        ++ flat_map component_tags ch
  | Text _ | Val _ => []
  end.

Definition render (c : cell) : element * cell := TestBuildFailComponent c.

(** A click on the button of the tree rendered from [c]: its handler runs
    on the cell, and a handler that throws leaves the cell as it was. *)
Definition click (c : cell) : M cell :=
  fun w =>
    let '(tree, c1) := render c in
    match click_handlers tree with
    | h :: _ =>
        match h c1 w with
        | (inr c2, w1) => (inr c2, w1)
        | (inl e, w1) => (inl e, w1)
        end
    | [] => (inr c1, w)
    end.

(** [n] clicks, each on the tree rendered from the state the one before
    left. *)
Fixpoint clicks (n : nat) (c : cell) : M cell :=
  match n with
  | O => ret c
  | S k => c1 <- click c ;; clicks k c1
  end.

(** [x + 1 + .. + 1], with [n] additions of binary64 numbers. *)
Fixpoint count_after (n : nat) (x : float) : float :=
  match n with
  | O => x
  | S k => count_after k (x + 1)%float
  end.

End React.

(** ** What a case reports *)

Module Verdict.
Import Runtime Jest.

(** The status of a case that asserts [toBe(expected)] on what a call
    gave. *)
Definition verdict (expected : value) (r : js_error + value) : case_status :=
  match r with
  | inl e => Failed e
  | inr v =>
      if same_value v expected then Passed
      else Failed (JestAssertionError expected v)
  end.

(** The world after test-lint-fail.js has run to its end in a host whose
    global [undefinedVar] is [v]. *)
Definition after_module (w : World) (v : value) : World :=
  {| globals := globals w;
     bindings := <["normalUtils" := VFunction "normalUtils"]> ∅;
     stdout := (stdout w ++ [[VStr "测试ESLint错误：未声明变量调用"]; [v]])%list |}.

End Verdict.

(** * Properties *)

Import Syntax Runtime Jest Program Tools Corpus.

(** ** The syntax trees against the text *)

(** The identifiers and import sources of each syntax tree stand on the
    lines of the file that their locations name. *)
Lemma trees_located :
  Ast.located Source.test_build_fail_js Ast.test_build_fail = true /\
  Ast.located Source.test_lint_fail_js Ast.test_lint_fail = true /\
  Ast.located Source.test_fail_test_js Ast.test_fail_test = true.
Proof. repeat split; vm_compute; reflexivity. Qed.

(** ** Evaluation *)

(** The function [sum] changes nothing and reads nothing of the world. *)
Lemma sum_pure (args : list value) (w : World) :
  snd (sum args w) = w /\ forall w', fst (sum args w') = fst (sum args w).
Proof.
  unfold sum, js_plus.
  destruct (arg 0 args), (arg 1 args); split; reflexivity.
Qed.

(** C1. With [sum] numeric addition, [sum(1,1)] is 2 and [sum(2,3)] is 5;
    the module registers two cases, of which the one asserting
    [toBe(5)] on [sum(2,3)] passes and the one asserting [toBe(3)] on
    [sum(1,1)] throws the assertion error with expected 3 and received 2. *)
Theorem sum_scenario (w : World) :
  sum [VNum 1; VNum 1] w = (inr (VNum 2), w) /\
  sum [VNum 2; VNum 3] w = (inr (VNum 5), w) /\
  exists passing failing : test_fn,
    test_fail_test [("sum", sum)] [] w =
      (inr [ ("sum(2,3) 应返回 5（正常用例）", passing)
           ; ("sum(1,1) 故意断言为 3（触发测试失败）", failing) ], w) /\
    (forall w', passing w' = (inr tt, w')) /\
    (forall w', failing w' = (inl (JestAssertionError (VNum 3) (VNum 2)), w')).
Proof.
  split; [reflexivity | split; [reflexivity |]].
  eexists; eexists; split; [reflexivity |].
  split; intros w'; reflexivity.
Qed.

(** C9. Every call of [normalUtils], whatever the arguments and whatever
    the world, returns the string "正常变量" and leaves the world as it was;
    the function declares no parameter. *)
Theorem normalUtils_constant (args : list value) (w : World) :
  normalUtils args w = (inr (VStr "正常变量"), w) /\
  exists b, In (ExportConst "normalUtils" (Arrow [] b)) (body Ast.test_lint_fail).
Proof.
  split; [reflexivity |].
  eexists. simpl. right; right; left. reflexivity.
Qed.

(** C10, as amended. In a host that has the console and no global
    [undefinedVar], evaluating the lint fixture as a module throws the
    ReferenceError for [undefinedVar] after the first line is logged;
    [normalUtils] is not initialised then, and the evaluation does not
    complete. *)
Theorem lint_fixture_throws (w : World) :
  globals w !! "console" = Some VConsole ->
  globals w !! "undefinedVar" = None ->
  eval_module test_lint_fail w =
    (inl (ReferenceError "undefinedVar"), after_first_log w) /\
  bindings (snd (eval_module test_lint_fail w)) !! "normalUtils" = None /\
  (forall u, fst (eval_module test_lint_fail w) <> inr u).
Proof.
  intros Hc Hu.
  assert (E : eval_module test_lint_fail w =
              (inl (ReferenceError "undefinedVar"), after_first_log w)).
  { unfold eval_module, test_lint_fail, console_log, bind, read_ident,
      fresh_module, after_first_log; simpl.
    rewrite !lookup_empty, Hc. simpl.
    rewrite !lookup_empty, Hc. simpl.
    rewrite !lookup_empty, Hu. reflexivity. }
  rewrite E. split; [reflexivity | split].
  - simpl. apply lookup_empty.
  - intros u H. discriminate H.
Qed.

Lemma lint_fixture_throws_witness :
  globals standard_world !! "console" = Some VConsole /\
  globals standard_world !! "undefinedVar" = None /\
  eval_module test_lint_fail standard_world =
    (inl (ReferenceError "undefinedVar"), after_first_log standard_world).
Proof.
  split; [reflexivity | split; [reflexivity |]].
  apply (lint_fixture_throws standard_world); reflexivity.
Defined.

(** C8. Every file of the corpus is shorter than 70 lines. *)
Theorem fixtures_short (path : string) :
  Forall (fun f => length (text f) < 70) (corpus path).
Proof.
  unfold corpus. repeat constructor; simpl; lia.
Qed.

(** ** Static analysis *)

Lemma in_scope_app (xs ys : list string) (x : string) :
  in_scope (xs ++ ys) x = in_scope xs x || in_scope ys x.
Proof. unfold in_scope. apply existsb_app. Qed.

(** C5. The lint fixture reads [undefinedVar] on line 7; no import,
    parameter or declaration anywhere in the file binds that name; with a
    lint configuration that knows the console and not [undefinedVar], it is
    the one unbound reference of the file.  The file exports exactly
    [normalUtils], declared with [const], and every name the function uses
    ([validVar]) is declared inside it. *)
Theorem lint_fixture_undeclared (h : Host) :
  in_scope (lint_globals h) "console" = true ->
  in_scope (lint_globals h) "undefinedVar" = false ->
  In ("undefinedVar", 7) (flat_map references (body Ast.test_lint_fail)) /\
  in_scope (all_binders Ast.test_lint_fail) "undefinedVar" = false /\
  no_undef h Ast.test_lint_fail = [("undefinedVar", 7)] /\
  exports Ast.test_lint_fail = ["normalUtils"] /\
  exists b,
    In (ExportConst "normalUtils" (Arrow [] b)) (body Ast.test_lint_fail) /\
    flat_map declared b = ["validVar"] /\
    unbound [] (Arrow [] b) = [].
Proof.
  intros Hc Hu.
  split; [simpl; tauto |].
  split; [reflexivity |].
  split.
  - unfold no_undef. simpl. rewrite !in_scope_app, Hc, Hu. reflexivity.
  - split; [reflexivity |].
    eexists. split; [simpl; right; right; left; reflexivity |].
    split; reflexivity.
Qed.

Lemma lint_fixture_undeclared_witness :
  in_scope usual_globals "console" = true /\
  in_scope usual_globals "undefinedVar" = false /\
  no_undef (repo_host documented_build_path ["react"] usual_globals)
           Ast.test_lint_fail = [("undefinedVar", 7)].
Proof.
  split; [reflexivity | split; [reflexivity |]].
  apply (lint_fixture_undeclared
           (repo_host documented_build_path ["react"] usual_globals));
    reflexivity.
Defined.



(** ** Resolution of the import of the test fixture *)

Lemma lookup_file_in {A} (fs : list (string * A)) (p : string) (f : string * A) :
  Resolve.lookup_file fs p = Some f -> In f fs /\ fst f = p.
Proof.
  unfold Resolve.lookup_file. intros H.
  apply find_some in H. destruct H as [Hin Heq].
  apply String.eqb_eq in Heq. auto.
Qed.

Lemma first_file_in {A} (fs : list (string * A)) (ps : list string) (f : string * A) :
  Resolve.first_file fs ps = Some f -> In f fs /\ In (fst f) ps.
Proof.
  induction ps as [| p ps IH]; simpl; [discriminate |].
  destruct (Resolve.lookup_file fs p) as [g |] eqn:E.
  - intros H. injection H as <-. apply lookup_file_in in E.
    destruct E as [Hin Hp]. auto.
  - intros H. destruct (IH H). auto.
Qed.

(** A module the import resolves to is a file of the project. *)
Lemma resolve_in_files {A} (fs : list (string * A)) (from spec : string)
    (f : string * A) :
  Resolve.resolve_relative fs from spec = Some f -> In f fs.
Proof. intros H. apply first_file_in in H. tauto. Qed.

(** No file of the repository exports [sum], whatever the name of the
    build fixture. *)
Lemma repository_exports_no_sum (path : string) (f : string * js_module) :
  In f (repository path) -> in_scope (exports (ast (snd f))) "sum" = false.
Proof.
  unfold repository. simpl.
  intros [<- | [<- | [<- | []]]]; reflexivity.
Qed.

(** The linking of the test fixture, unfolded: its one import, of [sum]. *)
Lemma link_test_fixture_eq (h : Host) :
  link h Source.test_fail_test_path (imports Ast.test_fail_test) =
    match Resolve.resolve_relative (files h) Source.test_fail_test_path
            "../../src/utils/normal-utils" with
    | Some f =>
        if in_scope (exports (ast (snd f))) "sum"
        then inr [("sum", match lookup_fun "sum" (funs (snd f)) with
                          | Some g => g
                          | None => not_a_function "sum"
                          end)]
        else inl (ExportNotFound "../../src/utils/normal-utils" "sum")
    | None =>
        inl (ModuleNotFound "../../src/utils/normal-utils"
                            Source.test_fail_test_path)
    end.
Proof.
  cbv [link link_decl imports Ast.test_fail_test imp_source imp_default
       imp_named wanted].
  change (Resolve.is_relative "../../src/utils/normal-utils") with true.
  cbv iota.
  destruct (Resolve.resolve_relative _ _ _) as [[q t] |]; [| reflexivity].
  cbv [bind_all bind_export map app fst snd].
  destruct (in_scope (exports (ast t)) "sum"); reflexivity.
Qed.

(** The import of line 6 either fails to link, or binds [sum] to what a
    file of the project exports under that name. *)
Lemma link_test_fixture (h : Host) :
  (exists e, link h Source.test_fail_test_path (imports Ast.test_fail_test) = inl e) \/
  (exists f, In f (files h) /\
             in_scope (exports (ast (snd f))) "sum" = true /\
             link h Source.test_fail_test_path (imports Ast.test_fail_test) =
               inr [("sum", match lookup_fun "sum" (funs (snd f)) with
                            | Some g => g
                            | None => not_a_function "sum"
                            end)]).
Proof.
  rewrite link_test_fixture_eq.
  destruct (Resolve.resolve_relative _ _ _) as [f |] eqn:E; [| left; eauto].
  apply resolve_in_files in E.
  destruct (in_scope (exports (ast (snd f))) "sum") eqn:S; [| left; eauto].
  right. exists f. auto.
Qed.

(** In the repository the import never links. *)
Lemma link_repository (path : string) (pkgs gl : list string) :
  exists e,
    link (repo_host path pkgs gl) Source.test_fail_test_path
         (imports Ast.test_fail_test) = inl e.
Proof.
  destruct (link_test_fixture (repo_host path pkgs gl)) as [H | [f [Hin [S _]]]];
    [exact H |].
  simpl in Hin. apply repository_exports_no_sum in Hin. congruence.
Qed.

(** With the collaborator in place the import binds [sum] to addition,
    unless the build fixture itself takes the place the import looks at. *)
Lemma link_spec_host (path : string) (pkgs gl : list string) :
  (exists e,
     link (spec_host path pkgs gl) Source.test_fail_test_path
          (imports Ast.test_fail_test) = inl e) \/
  link (spec_host path pkgs gl) Source.test_fail_test_path
       (imports Ast.test_fail_test) = inr [("sum", sum)].
Proof.
  destruct (link_test_fixture (spec_host path pkgs gl)) as [H | [f [Hin [S L]]]];
    [left; exact H |].
  right. unfold spec_host, files in Hin.
  apply in_app_or in Hin. destruct Hin as [Hin | Hin].
  - apply repository_exports_no_sum in Hin. congruence.
  - destruct Hin as [<- | []]. exact L.
Qed.

(** ** The test fixture in the repository *)

(** C2. No file of the repository exports [sum], so the import of line 6
    does not link, whatever the build fixture is called; with the build
    fixture at its documented path the specifier names no file at all,
    neither from the place the test fixture has in the repository nor from
    the place its header comment gives. *)
Theorem collaborator_missing (path : string) (pkgs gl : list string) :
  (forall f, In f (repository path) ->
             in_scope (exports (ast (snd f))) "sum" = false) /\
  (exists e, link (repo_host path pkgs gl) Source.test_fail_test_path
                  (imports Ast.test_fail_test) = inl e) /\
  Resolve.resolve_relative (repository documented_build_path)
    Source.test_fail_test_path "../../src/utils/normal-utils" = None /\
  Resolve.resolve_relative (repository documented_build_path)
    Source.test_fail_documented_path "../../src/utils/normal-utils" = None.
Proof.
  split; [apply repository_exports_no_sum |].
  split; [apply link_repository |].
  split; vm_compute; reflexivity.
Qed.

(** The run of the test fixture in a project [h], from any world. *)
Lemma run_suite_unlinked (h : Host) (e : js_error) (w : World) :
  link h Source.test_fail_test_path (imports Ast.test_fail_test) = inl e ->
  run_suite h Source.test_fail_test_path Ast.test_fail_test test_fail_test w =
    (SuiteFailedToRun e, w).
Proof. intros L. unfold run_suite. rewrite L. reflexivity. Qed.

Lemma run_suite_linked (h : Host) (w : World) :
  link h Source.test_fail_test_path (imports Ast.test_fail_test) =
    inr [("sum", sum)] ->
  run_suite h Source.test_fail_test_path Ast.test_fail_test test_fail_test w =
    (SuiteRan
       [ {| case_name := "sum(2,3) 应返回 5（正常用例）"; status := Passed |}
       ; {| case_name := "sum(1,1) 故意断言为 3（触发测试失败）";
            status := Failed (JestAssertionError (VNum 3) (VNum 2)) |} ],
     fresh_module w).
Proof. intros L. unfold run_suite. rewrite L. reflexivity. Qed.

(** C6. In the repository the test module does not load: the run reports
    no case at all, neither passed nor failed, exits with 1 and leaves the
    world as it found it. *)
Theorem test_suite_does_not_run (path : string) (pkgs gl : list string)
    (w : World) :
  let run := run_suite (repo_host path pkgs gl) Source.test_fail_test_path
                       Ast.test_fail_test test_fail_test w in
  (exists e, run = (SuiteFailedToRun e, w)) /\
  reported (fst run) = [] /\
  passed (fst run) = [] /\
  failed (fst run) = [] /\
  exit_code (fst run) = 1%Z.
Proof.
  destruct (link_repository path pkgs gl) as [e L].
  cbv zeta. rewrite (run_suite_unlinked _ e w L).
  split; [exists e; reflexivity |].
  repeat split.
Qed.

(** With the collaborator module in place the run reports two cases, the
    first passed and the second failed with expected 3 and received 2. *)
Lemma test_suite_with_collaborator (pkgs gl : list string) (w : World) :
  let s := fst (run_suite (spec_host documented_build_path pkgs gl)
                          Source.test_fail_test_path Ast.test_fail_test
                          test_fail_test w) in
  length (reported s) = 2 /\
  map status (passed s) = [Passed] /\
  map status (failed s) = [Failed (JestAssertionError (VNum 3) (VNum 2))] /\
  map case_name (reported s) =
    [ "sum(2,3) 应返回 5（正常用例）"; "sum(1,1) 故意断言为 3（触发测试失败）" ] /\
  exit_code s = 1%Z.
Proof.
  assert (L : link (spec_host documented_build_path pkgs gl)
                Source.test_fail_test_path (imports Ast.test_fail_test)
              = inr [("sum", sum)]).
  { rewrite link_test_fixture_eq. vm_compute. reflexivity. }
  rewrite (run_suite_linked _ w L). simpl. repeat split.
Qed.

(** Invoking the test runner on the test fixture runs its suite. *)
Lemma invoke_test_fixture (h : Host) (w : World) :
  invoke h Test test_fixture w =
    (suite_outcome
       (fst (run_suite h Source.test_fail_test_path Ast.test_fail_test
                       test_fail_test w)),
     snd (run_suite h Source.test_fail_test_path Ast.test_fail_test
                    test_fail_test w)).
Proof.
  unfold invoke. simpl.
  destruct (run_suite _ _ _ _ w) as [s w1]. reflexivity.
Qed.

(** C3. In the repository the test runner fails on the test fixture with a
    suite error and no assertion mismatch; with the build fixture at its
    documented path, what makes tools fail on the test fixture is the
    unresolved import of line 6, for the bundler as for the test runner. *)
Theorem test_fixture_unresolved_import (path : string) (pkgs gl : list string)
    (w : World) :
  (exists e,
     invoke (repo_host path pkgs gl) Test test_fixture w =
       ({| diagnostics := [SuiteError e]; exit := 1 |}, w)) /\
  triggers (repo_host documented_build_path pkgs usual_globals) test_fixture w =
    [ UnresolvedDependency "../../src/utils/normal-utils" 6
    ; SuiteError (ModuleNotFound "../../src/utils/normal-utils"
                                 Source.test_fail_test_path) ].
Proof.
  split.
  - destruct (link_repository path pkgs gl) as [e L]. exists e.
    rewrite invoke_test_fixture, (run_suite_unlinked _ e w L). reflexivity.
  - vm_compute. reflexivity.
Qed.

(** ** Isolation of the cases and of the fixtures *)

(** The runner reports every registered case, in order, whatever the
    cases before it did. *)
Lemma run_cases_names (r : registry) (w : World) :
  map case_name (fst (run_cases r w)) = map fst r.
Proof.
  revert w. induction r as [| [name fn] r IH]; intros w; simpl; [reflexivity |].
  destruct (fn w) as [res w1]. specialize (IH w1).
  destruct (run_cases r w1) as [reps w2]. simpl in *. now rewrite IH.
Qed.

Lemma run_cases_length (r : registry) (w : World) :
  length (fst (run_cases r w)) = length r.
Proof.
  rewrite <- (length_map case_name), run_cases_names. apply length_map.
Qed.

(** With the collaborator module in place, react installed and the usual
    lint globals, each fixture makes exactly one tool fail, its own, with
    exactly one diagnostic. *)
Lemma corpus_isolated_with_collaborator (w : World) :
  let h := spec_host documented_build_path ["react"] usual_globals in
  map (fun f => triggers h f w) (corpus documented_build_path) =
    [ [UnresolvedDependency "non-existent-lib" 6]
    ; [UndeclaredReference "undefinedVar" 7]
    ; [AssertionMismatch "sum(1,1) 故意断言为 3（触发测试失败）" (VNum 3) (VNum 2)] ] /\
  forall f t, In f (corpus documented_build_path) ->
    fails (fst (invoke h t f w)) = true <-> t = failureCategory f.
Proof.
  split; [vm_compute; reflexivity |].
  intros f t [<- | [<- | [<- | []]]]; destruct t; vm_compute;
    split; congruence.
Qed.

(** ** Repeated invocations *)

Lemma build_fixture_fails (h : Host) (from : string) :
  in_scope (installed h) "non-existent-lib" = false ->
  exit (run_build h from Ast.test_build_fail) = 1%Z.
Proof.
  intros Hn. unfold run_build, resolves. simpl. rewrite Hn. simpl.
  reflexivity.
Qed.

Lemma lint_fixture_fails (h : Host) :
  in_scope (lint_globals h) "undefinedVar" = false ->
  exit (run_lint h Ast.test_lint_fail) = 1%Z.
Proof.
  intros Hu. unfold run_lint, no_undef. simpl.
  rewrite !in_scope_app, Hu. simpl.
  destruct (in_scope (lint_globals h) "console"); reflexivity.
Qed.

Lemma invoke_build (h : Host) (f : fixture) (w : World) :
  invoke h Build f w = (run_build h (id f) (syntax f), w).
Proof. reflexivity. Qed.

Lemma invoke_lint (h : Host) (f : fixture) (w : World) :
  invoke h Lint f w = (run_lint h (syntax f), w).
Proof. reflexivity. Qed.

(** The outcome of the test runner on the test fixture does not depend on
    the world, a second run changes nothing more, and the exit code is 1,
    once the import fails to link or binds [sum] to addition. *)
Lemma test_fixture_stable (h : Host) (w w' : World) :
  (exists e, link h Source.test_fail_test_path (imports Ast.test_fail_test) = inl e) \/
  link h Source.test_fail_test_path (imports Ast.test_fail_test) =
    inr [("sum", sum)] ->
  fst (invoke h Test test_fixture w') = fst (invoke h Test test_fixture w) /\
  snd (invoke h Test test_fixture (snd (invoke h Test test_fixture w))) =
    snd (invoke h Test test_fixture w) /\
  exit (fst (invoke h Test test_fixture w)) = 1%Z.
Proof.
  intros [[e L] | L]; rewrite !invoke_test_fixture.
  - rewrite !(run_suite_unlinked _ e _ L). repeat split.
  - rewrite !(run_suite_linked _ _ L). repeat split.
Qed.

(** C7. On each fixture of the corpus, in the repository as it is and in
    the project with the collaborator module alike, the tool of the
    fixture gives an outcome that does not depend on the world it starts
    from; a second invocation after the first gives the same outcome and
    the same world; and the exit code is not 0. *)
Theorem invocation_idempotent (path : string) (pkgs gl : list string)
    (h : Host) (f : fixture) (w w' : World) :
  in_scope pkgs "non-existent-lib" = false ->
  in_scope gl "undefinedVar" = false ->
  h = repo_host path pkgs gl \/ h = spec_host path pkgs gl ->
  In f (corpus path) ->
  let t := failureCategory f in
  fst (invoke h t f w') = fst (invoke h t f w) /\
  fst (invoke h t f (snd (invoke h t f w))) = fst (invoke h t f w) /\
  snd (invoke h t f (snd (invoke h t f w))) = snd (invoke h t f w) /\
  exit (fst (invoke h t f w)) <> 0%Z.
Proof.
  intros Hn Hu Hh Hf.
  assert (Hpk : in_scope (installed h) "non-existent-lib" = false)
    by (destruct Hh as [-> | ->]; exact Hn).
  assert (Hgl : in_scope (lint_globals h) "undefinedVar" = false)
    by (destruct Hh as [-> | ->]; exact Hu).
  assert (Hl : (exists e, link h Source.test_fail_test_path
                               (imports Ast.test_fail_test) = inl e) \/
               link h Source.test_fail_test_path (imports Ast.test_fail_test)
                 = inr [("sum", sum)]).
  { destruct Hh as [-> | ->];
      [left; apply link_repository | apply link_spec_host]. }
  destruct Hf as [<- | [<- | [<- | []]]]; cbv zeta.
  - change (failureCategory (build_fixture path)) with Build.
    rewrite !invoke_build. cbn [fst snd id syntax build_fixture].
    rewrite (build_fixture_fails h path Hpk). repeat split. discriminate.
  - change (failureCategory lint_fixture) with Lint.
    rewrite !invoke_lint. cbn [fst snd syntax lint_fixture].
    rewrite (lint_fixture_fails h Hgl). repeat split. discriminate.
  - change (failureCategory test_fixture) with Test.
    destruct (test_fixture_stable h w w' Hl) as [H1 [H2 H3]].
    destruct (test_fixture_stable h w (snd (invoke h Test test_fixture w)) Hl)
      as [H4 _].
    rewrite H3. repeat split; try assumption. discriminate.
Qed.

Lemma invocation_idempotent_witness :
  in_scope ["react"] "non-existent-lib" = false /\
  in_scope usual_globals "undefinedVar" = false /\
  fst (invoke (repo_host documented_build_path ["react"] usual_globals)
              Test test_fixture (after_first_log standard_world)) =
  fst (invoke (repo_host documented_build_path ["react"] usual_globals)
              Test test_fixture standard_world).
Proof.
  split; [reflexivity | split; [reflexivity |]].
  apply (invocation_idempotent documented_build_path ["react"] usual_globals
           (repo_host documented_build_path ["react"] usual_globals)
           test_fixture standard_world (after_first_log standard_world));
    [reflexivity | reflexivity | left; reflexivity | simpl; tauto].
Defined.

(** * Further properties of the code *)

Import React Verdict.

(** ** The test module over any implementation of [sum] *)

(** The run of the test module once its import is bound to [f]: both cases
    are reported, each with the verdict of its own call. *)
Lemma run_suite_with (h : Host) (f : js_fun) (w : World) :
  link h Source.test_fail_test_path (imports Ast.test_fail_test) =
    inr [("sum", f)] ->
  run_suite h Source.test_fail_test_path Ast.test_fail_test test_fail_test w =
    (SuiteRan
       [ {| case_name := "sum(2,3) 应返回 5（正常用例）";
            status := verdict (VNum 5)
                        (fst (f [VNum 2; VNum 3] (fresh_module w))) |}
       ; {| case_name := "sum(1,1) 故意断言为 3（触发测试失败）";
            status := verdict (VNum 3)
                        (fst (f [VNum 1; VNum 1]
                                (snd (f [VNum 2; VNum 3] (fresh_module w))))) |} ],
     snd (f [VNum 1; VNum 1] (snd (f [VNum 2; VNum 3] (fresh_module w))))).
Proof.
  intros L. unfold run_suite. rewrite L.
  unfold eval_module. generalize (fresh_module w). intros w0.
  unfold test_fail_test, seq, test, bind, ret, run_cases,
    call_import, expect, toBe, throw, verdict. simpl.
  destruct (f [VNum 2; VNum 3] w0) as [[e1 | v1] w1]; simpl;
    unfold ret, throw;
    try destruct (same_value v1 (VNum 5)); simpl;
    destruct (f [VNum 1; VNum 1] w1) as [[e2 | v2] w2]; simpl;
    try destruct (same_value v2 (VNum 3)); reflexivity.
Qed.




Lemma verdict_passed (expected : value) (r : js_error + value) :
  verdict expected r = Passed <->
  exists v, r = inr v /\ same_value v expected = true.
Proof.
  unfold verdict. destruct r as [e | v].
  - split; [discriminate | intros [v [H _]]; discriminate].
  - destruct (same_value v expected) eqn:S.
    + split; [eauto | reflexivity].
    + split; [discriminate |].
      intros [u [H Hu]]. injection H as <-. congruence.
Qed.





(** ** The lint fixture as a module, in any host *)

(** In a module with no binding initialised a name is looked up in the
    global object alone. *)
Lemma read_ident_unbound (x : string) (w : World) :
  bindings w = ∅ ->
  read_ident x w =
    match globals w !! x with
    | Some v => (inr v, w)
    | None => (inl (ReferenceError x), w)
    end.
Proof. intros B. unfold read_ident. rewrite B, lookup_empty. reflexivity. Qed.

(** What evaluating test-lint-fail.js gives, by what the global object
    holds under [console] and [undefinedVar]. *)
Lemma lint_module_eq (w : World) :
  eval_module test_lint_fail w =
    match globals w !! "console" with
    | None => (inl (ReferenceError "console"), fresh_module w)
    | Some VConsole =>
        match globals w !! "undefinedVar" with
        | None => (inl (ReferenceError "undefinedVar"), after_first_log w)
        | Some v => (inr tt, after_module w v)
        end
    | Some _ =>
        (inl (TypeError "console.log is not a function"), fresh_module w)
    end.
Proof.
  unfold eval_module, test_lint_fail, console_log, bind.
  rewrite (read_ident_unbound "console" (fresh_module w) eq_refl).
  change (globals (fresh_module w)) with (globals w).
  destruct (globals w !! "console") as [c |] eqn:Hc; [| reflexivity].
  destruct c; try reflexivity.
  unfold ret, print, read_ident, init_binding, fresh_module,
    after_first_log, after_module.
  cbn [globals bindings stdout].
  rewrite !lookup_empty, Hc.
  cbn [globals bindings stdout].
  rewrite !lookup_empty.
  destruct (globals w !! "undefinedVar") as [v |].
  - cbn [globals bindings stdout]. rewrite <- app_assoc. reflexivity.
  - reflexivity.
Qed.

(** C10, counterexample. The claim as stated, that evaluation always
    throws the ReferenceError for [undefinedVar] and never completes, fails
    in two hosts.  In a host that has the console and a global
    [undefinedVar] (here with the value 7), evaluation completes: both
    lines are logged and [normalUtils] is initialised.  In a host without
    the console, evaluation throws at line 6, for [console], before
    [undefinedVar] is read. *)
Lemma lint_fixture_may_complete :
  let with_global :=
    {| globals := <["undefinedVar" := VNum 7]> (globals standard_world);
       bindings := ∅; stdout := [] |} in
  let without_console :=
    {| globals := ∅; bindings := ∅; stdout := [] |} in
  eval_module test_lint_fail with_global =
    (inr tt, after_module with_global (VNum 7)) /\
  bindings (snd (eval_module test_lint_fail with_global)) !! "normalUtils" =
    Some (VFunction "normalUtils") /\
  eval_module test_lint_fail without_console =
    (inl (ReferenceError "console"), without_console) /\
  ~ (forall w : World,
       fst (eval_module test_lint_fail w) = inl (ReferenceError "undefinedVar")).
Proof.
  cbv zeta.
  assert (E : eval_module test_lint_fail
                {| globals := <["undefinedVar" := VNum 7]> (globals standard_world);
                   bindings := ∅; stdout := [] |} =
              (inr tt,
               after_module
                 {| globals := <["undefinedVar" := VNum 7]> (globals standard_world);
                    bindings := ∅; stdout := [] |} (VNum 7))).
  { rewrite lint_module_eq. reflexivity. }
  split; [exact E |].
  split; [rewrite E; reflexivity |].
  split; [rewrite lint_module_eq; reflexivity |].
  intros H.
  specialize (H {| globals := <["undefinedVar" := VNum 7]> (globals standard_world);
                   bindings := ∅; stdout := [] |}).
  rewrite E in H. discriminate H.
Qed.

(** X4. In a host whose global object has the console and a global
    [undefinedVar], evaluating the lint fixture completes: it logs the
    message and then the value of that global, initialises [normalUtils]
    and nothing else, and leaves the global object as it was. *)
Theorem lint_module_completes (w : World) (v : value) :
  globals w !! "console" = Some VConsole ->
  globals w !! "undefinedVar" = Some v ->
  eval_module test_lint_fail w = (inr tt, after_module w v).
Proof. intros Hc Hu. rewrite lint_module_eq, Hc, Hu. reflexivity. Qed.

Lemma lint_module_completes_witness :
  let w := {| globals := <["undefinedVar" := VNum 7]> (globals standard_world);
              bindings := ∅; stdout := [] |} in
  globals w !! "console" = Some VConsole /\
  globals w !! "undefinedVar" = Some (VNum 7) /\
  eval_module test_lint_fail w = (inr tt, after_module w (VNum 7)).
Proof.
  cbv zeta. split; [reflexivity | split; [reflexivity |]].
  apply (lint_module_completes
           {| globals := <["undefinedVar" := VNum 7]> (globals standard_world);
              bindings := ∅; stdout := [] |} (VNum 7)); reflexivity.
Defined.

(** X5. In a host whose global [console] is missing or is not the console
    object, evaluating the lint fixture throws at line 6, a ReferenceError
    for [console] or a TypeError, before anything is logged and before the
    read of [undefinedVar]. *)
Theorem lint_module_without_console (w : World) :
  globals w !! "console" <> Some VConsole ->
  stdout (snd (eval_module test_lint_fail w)) = stdout w /\
  (fst (eval_module test_lint_fail w) = inl (ReferenceError "console") \/
   fst (eval_module test_lint_fail w) =
     inl (TypeError "console.log is not a function")).
Proof.
  intros Hc. rewrite lint_module_eq.
  destruct (globals w !! "console") as [c |]; [| simpl; auto].
  destruct c; simpl; auto. congruence.
Qed.

Lemma lint_module_without_console_witness :
  let w := {| globals := ∅; bindings := ∅; stdout := [] |} in
  globals w !! "console" <> Some VConsole /\
  fst (eval_module test_lint_fail w) = inl (ReferenceError "console").
Proof.
  cbv zeta. split; [discriminate |].
  destruct (lint_module_without_console
              {| globals := ∅; bindings := ∅; stdout := [] |})
    as [_ [H | H]]; [discriminate | exact H | discriminate H].
Defined.

(** X6. In every host: evaluating the lint fixture never changes the
    global object, only appends to the console, at most two lines, and ends
    with [normalUtils] initialised exactly when it completes; when it
    throws, no binding of the module is initialised. *)
Theorem lint_module_invariant (w : World) :
  let r := fst (eval_module test_lint_fail w) in
  let w1 := snd (eval_module test_lint_fail w) in
  globals w1 = globals w /\
  (exists ext, stdout w1 = (stdout w ++ ext)%list /\ length ext <= 2) /\
  (r = inr tt <-> bindings w1 !! "normalUtils" = Some (VFunction "normalUtils")) /\
  (r <> inr tt -> bindings w1 = ∅).
Proof.
  cbv zeta. rewrite lint_module_eq.
  assert (Hx : forall e : js_error, @inl js_error unit e = inr tt <->
               (∅ : gmap string value) !! "normalUtils" =
                 Some (VFunction "normalUtils")).
  { intros e. rewrite lookup_empty. split; discriminate. }
  assert (Hn : exists ext : list (list value),
               stdout w = (stdout w ++ ext)%list /\ length ext <= 2).
  { exists []. rewrite app_nil_r. split; [reflexivity | simpl; lia]. }
  destruct (globals w !! "console") as [c |];
    [destruct c |]; simpl; try (repeat split; auto; apply Hx).
  destruct (globals w !! "undefinedVar") as [v |]; simpl.
  - split; [reflexivity |]. split; [eexists; split; [reflexivity | simpl; lia] |].
    split; [split; [intros _; apply lookup_insert_eq | reflexivity] |].
    intros H; contradiction H; reflexivity.
  - split; [reflexivity |]. split; [eexists; split; [reflexivity | simpl; lia] |].
    split; [apply Hx | reflexivity].
Qed.

(** ** The component of the build fixture *)

(** X7. A render of [TestBuildFailComponent] shows the value of its state
    cell, 0 on the first render; it leaves a filled cell as it is, so that
    rendering again gives the same tree; and every render, whatever the
    state, uses the component of the missing package. *)
Theorem render_shows_state (c : cell) :
  let tree := fst (render c) in
  let c1 := snd (render c) in
  (c = None -> c1 = Some (VNum 0)) /\
  (forall v, c = Some v -> c1 = c) /\
  (forall v, c1 = Some v -> shown_values tree = [v]) /\
  render c1 = (tree, c1) /\
  component_tags tree = ["NonExistentComponent"] /\
  length (click_handlers tree) = 1.
Proof.
  cbv zeta. destruct c as [v |]; simpl.
  - repeat split; try reflexivity; try discriminate.
    intros u H. injection H as <-. reflexivity.
  - repeat split; try reflexivity; try discriminate.
    intros u H. injection H as <-. reflexivity.
Qed.

(** X8. The click handler of a render adds 1 to the count that render
    saw, not to the count the cell holds when it runs: the tree rendered at
    [x] has one click handler, and run on any cell, and any number of
    times, it sets the cell to [x + 1] and leaves the world alone. *)
Theorem handler_uses_rendered_count (x : float) :
  exists h : handler,
    click_handlers (fst (render (Some (VNum x)))) = [h] /\
    (forall c w, h c w = (inr (Some (VNum (x + 1)%float)), w)) /\
    (forall c w c1 w1, h c w = (inr c1, w1) -> h c1 w1 = (inr c1, w1)).
Proof.
  eexists. split; [reflexivity |].
  split; [intros c w; reflexivity |].
  intros c w c1 w1 H. injection H as <- <-. reflexivity.
Qed.

Lemma click_number (x : float) (w : World) :
  click (Some (VNum x)) w = (inr (Some (VNum (x + 1)%float)), w).
Proof. reflexivity. Qed.

(** X9. From a cell that holds the number [x], [n] clicks, each on the
    tree rendered after the one before, never throw, leave the world alone
    and end with the cell at [x + 1 + .. + 1] ([n] additions); from the
    empty cell the count starts at 0.  The cell never holds anything but a
    number. *)
Theorem clicks_count (n : nat) (x : float) (w : World) :
  clicks n (Some (VNum x)) w = (inr (Some (VNum (count_after n x))), w) /\
  clicks (S n) None w = (inr (Some (VNum (count_after (S n) 0))), w).
Proof.
  assert (H : forall k y, clicks k (Some (VNum y)) w =
                          (inr (Some (VNum (count_after k y))), w)).
  { induction k as [| k IH]; intros y; [reflexivity |].
    simpl clicks. unfold bind. rewrite click_number. simpl. apply IH. }
  split; [apply H |].
  simpl clicks. unfold bind.
  change (click None w) with (@inr js_error cell (Some (VNum (0 + 1)%float)), w).
  simpl. apply H.
Qed.

Example three_clicks (w : World) :
  clicks 3 None w = (inr (Some (VNum 3)), w).
Proof. reflexivity. Qed.

(** ** What each file leaves to its surroundings *)

(** X10. The packages the files need: in every project the build of the
    build fixture reports, of "non-existent-lib" (line 6) and "react"
    (line 7), the ones that are not installed, and passes exactly when both
    are; the lint fixture imports nothing and builds in every project. *)
Theorem build_needs (h : Host) (from : string) :
  diagnostics (run_build h from Ast.test_build_fail) =
    map (fun d => UnresolvedDependency (fst d) (snd d))
        (List.filter (fun d => negb (in_scope (installed h) (fst d)))
                     [("non-existent-lib", 6); ("react", 7)]) /\
  (exit (run_build h from Ast.test_build_fail) = 0%Z <->
   in_scope (installed h) "non-existent-lib" = true /\
   in_scope (installed h) "react" = true) /\
  run_build h from Ast.test_lint_fail = {| diagnostics := []; exit := 0 |}.
Proof.
  unfold run_build, resolves. simpl.
  destruct (in_scope (installed h) "non-existent-lib"),
           (in_scope (installed h) "react"); simpl;
    repeat split; try reflexivity; try discriminate;
    intros [H1 H2]; discriminate.
Qed.

(** X11. The names the files leave free: in every lint configuration the
    no-undef reports are, for the lint fixture, the occurrences of
    [console] (lines 6, 7) and [undefinedVar] (line 7) that are not
    configured globals; for the test fixture those of [test] and [expect]
    (lines 9, 10, 14, 16); and the build fixture binds every name it
    uses. *)
Theorem free_names (h : Host) :
  let unknown := fun r : string * nat => negb (in_scope (lint_globals h) (fst r)) in
  no_undef h Ast.test_lint_fail =
    List.filter unknown [("console", 6); ("console", 7); ("undefinedVar", 7)] /\
  no_undef h Ast.test_fail_test =
    List.filter unknown [("test", 9); ("expect", 10); ("test", 14); ("expect", 16)] /\
  no_undef h Ast.test_build_fail = [].
Proof.
  cbv zeta. unfold no_undef. simpl. rewrite !in_scope_app. simpl.
  rewrite !orb_false_r, !orb_true_r. simpl.
  destruct (in_scope (lint_globals h) "console"),
           (in_scope (lint_globals h) "undefinedVar"),
           (in_scope (lint_globals h) "test"),
           (in_scope (lint_globals h) "expect"); repeat split; reflexivity.
Qed.
